(** * Water Intake Tracker: the state logic of [app.py]

    A shallow embedding of [WaterTrackerApp]: the [tk.DoubleVar] holding the
    day's intake, the JSON file [water_tracker_data.json], the widgets that
    [update_display] writes and the message boxes the handlers open.

    Numbers are Python floats, that is IEEE 754 binary64 values; they are
    modelled by [spec_float] at precision 53 and maximal exponent 1024, with
    the rounding the standard prescribes.  The file is modelled by the value
    [json.load] reads from it: [json.dump] followed by [json.load] gives back
    a dict of strings and floats unchanged, and the text in between is not
    modelled.  A file that is there can be opened, and writing the file is
    taken to succeed. *)

From Stdlib Require Import ZArith Bool List Lia.
From Stdlib Require Import Floats.SpecFloat.
From stdpp Require Import gmap strings.

Open Scope string_scope.
Open Scope Z_scope.

(** ** Binary64 arithmetic *)

Module Float64.

Definition prec : Z := 53.
Definition emax : Z := 1024.

Definition float : Type := spec_float.

(** [float(z)] for a Python int [z]: the nearest double, ties to even. *)
Definition of_int (z : Z) : float := binary_normalize prec emax z 0 false.

Definition add : float -> float -> float := SFadd prec emax.
Definition sub : float -> float -> float := SFsub prec emax.
Definition mul : float -> float -> float := SFmul prec emax.
Definition div : float -> float -> float := SFdiv prec emax.

(** Python's [x < y] and [x >= y]; both are false when a NaN is involved. *)
Definition ltb (x y : float) : bool := SFltb x y.
Definition geb (x y : float) : bool := SFleb y x.

(** The literal [0.0]. *)
Definition zero : float := S754_zero false.

Definition is_nan (x : float) : bool :=
  match x with S754_nan => true | _ => false end.

(** [+0.0], a positive finite number or [+inf]. *)
Definition plus_signed (x : float) : Prop :=
  match x with
  | S754_zero false | S754_infinity false | S754_finite false _ _ => True
  | _ => False
  end.

End Float64.

Import Float64.

(** ** Python values and the data file *)

(** The values [json.load] produces.  A JSON number with a fraction or an
    exponent is a float, [PyNum]; any other JSON number is an int, [PyInt],
    of any size. *)
#[local] Set Warnings "-register-all".

Inductive pyval : Type :=
  | PyNone
  | PyBool (b : bool)
  | PyInt (z : Z)
  | PyNum (x : float)
  | PyStr (s : string)
  | PyList (l : list pyval)
  | PyDict (d : gmap string pyval).

(** What [open(DATA_FILE, 'r')] followed by [json.load] meets. *)
Inductive disk : Type :=
  | NoFile                   (* FileNotFoundError *)
  | NotJson                  (* text that is no JSON: json.JSONDecodeError *)
  | NotText                  (* bytes that do not decode: UnicodeDecodeError *)
  | TooDeep                  (* JSON nested too deeply: RecursionError *)
  | Json (data : pyval).

Inductive exn : Type :=
  | AttributeError           (* [data.get] on a value that is not a dict *)
  | UnicodeDecodeError       (* [f.read()] inside [json.load] *)
  | RecursionError           (* the scanner of [json.load] *)
  | OverflowError            (* [float] of an int beyond the doubles *)
  | TclError.                (* [DoubleVar.get] on a value that is no double *)

Inductive result (A : Type) : Type :=
  | Ok (a : A)
  | Raise (e : exn).
Arguments Ok {A} a.
Arguments Raise {A} e.

Definition bind {A B : Type} (r : result A) (k : A -> result B) : result B :=
  match r with
  | Ok a => k a
  | Raise e => Raise e
  end.

Notation "x <- r ;; k" := (bind r (fun x => k))
  (at level 100, r at next level, right associativity).

(** ** Constants *)

Definition DAILY_GOAL : Z := 2000.

(** [DAILY_GOAL] where Python converts it to a float: in [x >= DAILY_GOAL],
    [x / DAILY_GOAL] and [DAILY_GOAL - x].  2000 is a double, so the exact
    comparison of a float with the int 2000 is the comparison with 2000.0. *)
Definition goal : float := Eval vm_compute in of_int DAILY_GOAL.

(** ** Widgets and dialogs *)

Inductive status : Type :=
  | GoalAchieved                          (* "Goal Achieved! Keep it up!" *)
  | NeedMore (liters : float).            (* "You need {remaining / 1000:.2f} L more." *)

Record Widgets : Type := {
  amount_label : float * float;           (* intake_liters, goal_liters *)
  progress_bar : float;                   (* progress_percentage *)
  status_label : status
}.

Inductive dialog : Type :=
  | GoalReached.                          (* messagebox.showinfo("Goal Reached!", ...) *)

(** ** The application state *)

Record App : Type := {
  current_intake : pyval;                 (* the object last [set] into the DoubleVar *)
  data_file : disk;                       (* DATA_FILE *)
  dumped : list (gmap string pyval);      (* every [json.dump], the latest first *)
  widgets : option Widgets;               (* [None] until the first [update_display] *)
  dialogs : list dialog                   (* message boxes shown, the latest first *)
}.

Definition set_intake (v : pyval) (app : App) : App :=
  {| current_intake := v;
     data_file := data_file app;
     dumped := dumped app;
     widgets := widgets app;
     dialogs := dialogs app |}.

Definition write_file (data : gmap string pyval) (app : App) : App :=
  {| current_intake := current_intake app;
     data_file := Json (PyDict data);
     dumped := data :: dumped app;
     widgets := widgets app;
     dialogs := dialogs app |}.

Definition set_widgets (w : Widgets) (app : App) : App :=
  {| current_intake := current_intake app;
     data_file := data_file app;
     dumped := dumped app;
     widgets := Some w;
     dialogs := dialogs app |}.

Definition showinfo (d : dialog) (app : App) : App :=
  {| current_intake := current_intake app;
     data_file := data_file app;
     dumped := dumped app;
     widgets := widgets app;
     dialogs := d :: dialogs app |}.

(** [app.py] line 47: [tk.DoubleVar(value=0.0)], before [load_data]. *)
Definition startup (file : disk) : App :=
  {| current_intake := PyNum zero;
     data_file := file;
     dumped := [];
     widgets := None;
     dialogs := [] |}.

(** ** The handlers *)

Section Handlers.

(** [DoubleVar.get] hands the stored object to Tcl's [getdouble].  A float
    comes back as it is and an int as the nearest double, unless that is out
    of range; what Tcl makes of any other object (a numeric string, a
    boolean, a list) is left open. *)
Variable tcl_getdouble : pyval -> option float.

Definition getdouble (v : pyval) : result float :=
  match v with
  | PyNum x => Ok x
  | PyInt z =>
      match of_int z with
      | S754_infinity _ => Raise OverflowError
      | x => Ok x
      end
  | _ => match tcl_getdouble v with
         | Some x => Ok x
         | None => Raise TclError
         end
  end.

(** [self.current_intake.get()] *)
Definition get (app : App) : result float := getdouble (current_intake app).

(** [data.get(key)] and [data.get(key, default)] *)
Definition dict_get (data : pyval) (key : string) (default : pyval) : result pyval :=
  match data with
  | PyDict d => Ok (match d !! key with Some v => v | None => default end)
  | _ => Raise AttributeError
  end.

(** [v == today], for the str [today] *)
Definition eq_str (v : pyval) (today : string) : bool :=
  match v with
  | PyStr s => bool_decide (s = today)
  | _ => false
  end.

(** The dict [save_data] builds. *)
Definition record (today : string) (x : float) : gmap string pyval :=
  {[ "date" := PyStr today; "intake" := PyNum x ]}.

(** [save_data], lines 76-85.  [today] is [str(date.today())]. *)
Definition save_data (today : string) (app : App) : result App :=
  x <- get app ;;
  Ok (write_file (record today x) app).

(** [load_data], lines 56-74. *)
Definition load_data (today : string) (app : App) : result App :=
  match data_file app with
  | Json data =>
      saved <- dict_get data "date" PyNone ;;
      if eq_str saved today then
        v <- dict_get data "intake" (PyNum zero) ;;
        Ok (set_intake v app)
      else
        save_data today (set_intake (PyNum zero) app)
  | NoFile | NotJson => Ok (set_intake (PyNum zero) app)
  | NotText => Raise UnicodeDecodeError
  | TooDeep => Raise RecursionError
  end.

(** [update_display], lines 116-135. *)
Definition update_display (app : App) : result App :=
  x <- get app ;;
  let intake_liters := div x (of_int 1000) in
  let goal_liters := div goal (of_int 1000) in
  let progress_percentage := mul (div x goal) (of_int 100) in
  let st :=
    if geb x goal then GoalAchieved
    else let remaining := sub goal x in NeedMore (div remaining (of_int 1000)) in
  Ok (set_widgets {| amount_label := (intake_liters, goal_liters);
                     progress_bar := progress_percentage;
                     status_label := st |} app).

(** [add_water], lines 87-105. *)
Definition add_water (today : string) (amount_ml : float) (app : App) : result App :=
  x <- get app ;;
  if geb x goal then Ok app
  else
    let new_intake := add x amount_ml in
    let app := set_intake (PyNum new_intake) app in
    app <- update_display app ;;
    app <- save_data today app ;;
    if geb new_intake goal && ltb (sub new_intake amount_ml) goal
    then Ok (showinfo GoalReached app)
    else Ok app.

(** [reset_day], lines 107-114.  [yes] is the answer to [askyesno]. *)
Definition reset_day (today : string) (yes : bool) (app : App) : result App :=
  if yes then
    let app := set_intake (PyNum zero) app in
    app <- update_display app ;;
    save_data today app
  else Ok app.

(** *** Runs of the application

    One event per call of a handler, each with the date [date.today()]
    gives while it runs.  A run ends at the first exception. *)
Inductive event : Type :=
  | Load
  | AddWater (amount_ml : float)
  | ResetDay (yes : bool).

Definition handle (today : string) (ev : event) (app : App) : result App :=
  match ev with
  | Load => load_data today app
  | AddWater amount_ml => add_water today amount_ml app
  | ResetDay yes => reset_day today yes app
  end.

Fixpoint run (evs : list (string * event)) (app : App) : result App :=
  match evs with
  | [] => Ok app
  | (today, ev) :: evs' => app' <- handle today ev app ;; run evs' app'
  end.

(** *** The record the application holds

    The day's record is what [save_data] would write: today's date and the
    double in the DoubleVar. *)
Definition current_record (today : string) (app : App) : result (gmap string pyval) :=
  x <- get app ;;
  Ok (record today x).

(** *** Non-negative intake *)

(** The object reads as a double [x] with [x >= 0]. *)
Definition reads_nonneg (v : pyval) : Prop :=
  exists x, getdouble v = Ok x /\ geb x zero = true.

(** Whenever the file holds a dict with a date string, the intake that
    [load_data] takes from it reads as a non-negative double. *)
Definition stored_nonneg (file : disk) : Prop :=
  forall (d : gmap string pyval) (s : string),
    file = Json (PyDict d) ->
    d !! "date" = Some (PyStr s) ->
    reads_nonneg (match d !! "intake" with Some v => v | None => PyNum zero end).

Definition intake_nonneg (app : App) : Prop :=
  reads_nonneg (current_intake app) /\ stored_nonneg (data_file app).

End Handlers.

(** Every amount handed to [add_water] is positive, as [add_custom_amount]
    and the two buttons see to. *)
Definition positive_amounts (evs : list (string * event)) : bool :=
  forallb (fun tev => match snd tev with
                      | AddWater amount_ml => ltb zero amount_ml
                      | _ => true
                      end) evs.

(** A Tcl that reads nothing but ints and floats as doubles. *)
Definition numbers_only : pyval -> option float := fun _ => None.

(** The float just below 2000.0, [1999.9999999999998] in Python. *)
Definition below_goal : float := S754_finite false 8796093022207999 (-42).

(** ** Start-up, the buttons and the custom entry *)

(** The two quick-add buttons of [create_widgets], lines 167 and 170. *)
Inductive button : Type :=
  | Glass                                 (* "Add Glass (250ml)" *)
  | Bottle.                               (* "Add Bottle (500ml)" *)

Definition button_amount (b : button) : float :=
  match b with
  | Glass => of_int 250
  | Bottle => of_int 500
  end.

(** The boxes [add_custom_amount] opens. *)
Inductive notice : Type :=
  | NotPositive                           (* showwarning: "Please enter a positive number." *)
  | NotANumber.                           (* showerror: "Please enter a valid number for the amount." *)

(** The application with its entry field. *)
Record Window : Type := {
  window_app : App;
  custom_entry : string;                  (* the text in [self.custom_entry] *)
  notices : list notice                   (* the latest first *)
}.

Section Window.

Variable tcl_getdouble : pyval -> option float.

(** Python's [float(text)]; [None] stands for [ValueError]. *)
Variable py_float : string -> option float.

(** [__init__], lines 47-54: the DoubleVar at 0.0, [load_data],
    [create_widgets], [update_display]. *)
Definition init (today : string) (file : disk) : result App :=
  app <- load_data tcl_getdouble today (startup file) ;;
  update_display tcl_getdouble app.

(** The commands of the two buttons: [lambda: self.add_water(250)] and
    [lambda: self.add_water(500)]. *)
Definition press (today : string) (b : button) (app : App) : result App :=
  add_water tcl_getdouble today (button_amount b) app.

(** [add_custom_amount], lines 188-202.  [TclError] is no [ValueError] and
    passes the [except] clause. *)
Definition add_custom_amount (today : string) (win : Window) : result Window :=
  match py_float (custom_entry win) with
  | Some amount =>
      if ltb zero amount then
        app <- add_water tcl_getdouble today amount (window_app win) ;;
        Ok {| window_app := app;
              custom_entry := "Enter ml";
              notices := notices win |}
      else
        Ok {| window_app := window_app win;
              custom_entry := custom_entry win;
              notices := NotPositive :: notices win |}
  | None =>
      Ok {| window_app := window_app win;
            custom_entry := custom_entry win;
            notices := NotANumber :: notices win |}
  end.

End Window.

(** The events of a list of button presses. *)
Definition presses (l : list (string * button)) : list (string * event) :=
  map (fun tb => (fst tb, AddWater (button_amount (snd tb)))) l.

(** Runs made of calls of [add_water] only. *)
Definition adds_only (evs : list (string * event)) : bool :=
  forallb (fun tev => match snd tev with
                      | AddWater _ => true
                      | _ => false
                      end) evs.

(** Runs in which [load_data] is not called again. *)
Definition no_load (evs : list (string * event)) : bool :=
  forallb (fun tev => match snd tev with
                      | Load => false
                      | _ => true
                      end) evs.

(** Runs all of whose events fall on the day [today]. *)
Definition all_on (today : string) (evs : list (string * event)) : bool :=
  forallb (fun tev => bool_decide (fst tev = today)) evs.

(** A stand-in for [float] that reads three texts. *)
Definition float_of_sample (text : string) : option float :=
  if bool_decide (text = "300") then Some (of_int 300)
  else if bool_decide (text = "-5") then Some (of_int (-5))
  else if bool_decide (text = "0") then Some zero
  else None.

(** * Facts about binary64 arithmetic *)

Module Float64Facts.

(** ** Rounding keeps a mantissa that is not negative that way *)

Section Rounding.
Variables p e : Z.

Lemma shr_1_nonneg mrs : 0 <= shr_m mrs -> 0 <= shr_m (shr_1 mrs).
Proof.
  destruct mrs as [m r s]; simpl.
  destruct m as [|[q|q|]|[q|q|]]; simpl; lia.
Qed.

Lemma iter_shr_1_nonneg n :
  forall mrs, 0 <= shr_m mrs -> 0 <= shr_m (SpecFloat.iter_pos shr_1 n mrs).
Proof.
  induction n as [n IH|n IH|]; intros mrs H; simpl.
  - apply IH, IH, shr_1_nonneg, H.
  - apply IH, IH, H.
  - apply shr_1_nonneg, H.
Qed.

Lemma shr_nonneg mrs ex n :
  0 <= shr_m mrs -> 0 <= shr_m (fst (shr mrs ex n)).
Proof.
  intros H. destruct n; simpl; auto using iter_shr_1_nonneg.
Qed.

Lemma shr_fexp_nonneg m ex l :
  0 <= m -> 0 <= shr_m (fst (shr_fexp p e m ex l)).
Proof.
  intros H. unfold shr_fexp. apply shr_nonneg.
  destruct l as [|[]]; simpl; exact H.
Qed.

Lemma round_nearest_even_nonneg m l :
  0 <= m -> 0 <= round_nearest_even m l.
Proof.
  intros H. destruct l as [|[]]; simpl; try lia.
  destruct (Z.even m); lia.
Qed.

Lemma binary_round_aux_sign m ex l :
  0 <= m -> plus_signed (binary_round_aux p e false m ex l).
Proof.
  intros H. unfold binary_round_aux.
  pose proof (shr_fexp_nonneg m ex l H) as H1.
  destruct (shr_fexp p e m ex l) as [mrs' e']. simpl in H1.
  pose proof (shr_fexp_nonneg _ e' loc_Exact
                (round_nearest_even_nonneg _ (loc_of_shr_record mrs') H1)) as H2.
  destruct (shr_fexp p e (round_nearest_even _ _) e' loc_Exact) as [mrs'' e''].
  simpl in H2.
  destruct (shr_m mrs''); simpl; [exact I| |lia].
  destruct (_ <=? _)%Z; exact I.
Qed.

Lemma binary_round_sign m ex : plus_signed (binary_round p e false m ex).
Proof.
  unfold binary_round. destruct (shl_align _ _ _) as [mz ez].
  apply binary_round_aux_sign. lia.
Qed.
End Rounding.

(** ** Comparisons *)

Lemma geb_zero_inv x :
  geb x zero = true ->
  match x with
  | S754_zero _ | S754_infinity false | S754_finite false _ _ => True
  | _ => False
  end.
Proof. destruct x as [s|[]| |[] m ex]; simpl; try discriminate; auto. Qed.

Lemma ltb_zero_inv a :
  ltb zero a = true ->
  match a with
  | S754_infinity false | S754_finite false _ _ => True
  | _ => False
  end.
Proof. destruct a as [s|[]| |[] m ex]; simpl; try discriminate; auto. Qed.

Lemma plus_signed_geb x : plus_signed x -> geb x zero = true.
Proof.
  destruct x as [[]|[]| |[] m ex]; simpl; intros H;
    try contradiction; reflexivity.
Qed.

Lemma SFcompare_antisym x y :
  SFcompare y x = option_map CompOpp (SFcompare x y).
Proof.
  destruct x as [sx|[]| |[] mx ex]; destruct y as [sy|[]| |[] my ey]; simpl;
    try reflexivity; f_equal;
    rewrite (Z.compare_antisym ex ey);
    destruct (ex ?= ey); simpl; try reflexivity;
    fold (Pos.compare my mx); fold (Pos.compare mx my);
    rewrite (Pos.compare_antisym mx my);
    destruct (mx ?= my)%positive; reflexivity.
Qed.

(** [x < y] excludes [x >= y]. *)
Lemma ltb_not_geb x y : ltb x y = true -> geb x y = false.
Proof.
  unfold ltb, geb, SFltb, SFleb. rewrite (SFcompare_antisym x y).
  destruct (SFcompare x y) as [[]|]; simpl; congruence.
Qed.

(** Without a NaN, [x >= y] failing means [x < y]. *)
Lemma not_geb_ltb x y :
  is_nan x = false -> is_nan y = false -> geb x y = false -> ltb x y = true.
Proof.
  unfold ltb, geb, SFltb, SFleb. rewrite (SFcompare_antisym x y).
  intros Hx Hy.
  destruct (SFcompare x y) as [[]|] eqn:E; simpl; try congruence.
  destruct x as [sx|[]| |[] mx ex]; destruct y as [sy|[]| |[] my ey];
    simpl in *; discriminate.
Qed.

(** ** Addition *)

Lemma geb_not_nan x y : geb x y = true -> is_nan x = false.
Proof.
  destruct x; try reflexivity. destruct y; discriminate.
Qed.

Lemma add_not_nan_l x a : is_nan (add x a) = false -> is_nan x = false.
Proof. destruct x; try reflexivity. discriminate. Qed.

Lemma add_zero_l a : ltb zero a = true -> add zero a = a.
Proof.
  intros Ha. apply ltb_zero_inv in Ha.
  destruct a as [sa|[]| |[] ma ea]; try contradiction; reflexivity.
Qed.

(** A non-negative double plus a positive one is non-negative. *)
Lemma add_nonneg x a :
  geb x zero = true -> ltb zero a = true -> geb (add x a) zero = true.
Proof.
  intros Hx Ha. apply geb_zero_inv in Hx. apply ltb_zero_inv in Ha.
  destruct x as [sx|[]| |[] mx ex]; try contradiction;
    destruct a as [sa|[]| |[] ma ea]; try contradiction; try reflexivity.
  apply plus_signed_geb. unfold add, SFadd, binary_normalize.
  simpl cond_Zopp.
  change (Z.pos ?a + Z.pos ?b) with (Z.pos (a + b)).
  apply binary_round_sign.
Qed.

End Float64Facts.

Import Float64Facts.

(** * The record written by [save_data] *)

Lemma record_date today x : record today x !! "date" = Some (PyStr today).
Proof. unfold record. by simplify_map_eq. Qed.

Lemma record_intake today x : record today x !! "intake" = Some (PyNum x).
Proof. unfold record. by simplify_map_eq. Qed.

Lemma record_other today x (k : string) :
  k <> "date" -> k <> "intake" -> record today x !! k = None.
Proof. intros Hd Hi. unfold record. by simplify_map_eq. Qed.

Lemma eq_str_true today : eq_str (PyStr today) today = true.
Proof. unfold eq_str. by rewrite bool_decide_eq_true. Qed.

Lemma eq_str_other (d : gmap string pyval) today :
  d !! "date" <> Some (PyStr today) ->
  eq_str (match d !! "date" with Some v => v | None => PyNone end) today = false.
Proof.
  intros H. destruct (d !! "date") as [[]|]; try reflexivity.
  simpl. apply bool_decide_eq_false. congruence.
Qed.

(** * The handlers *)

Section Correctness.

Variable tcl : pyval -> option float.

Lemma get_set_num x app : get tcl (set_intake (PyNum x) app) = Ok x.
Proof. reflexivity. Qed.

Lemma save_data_ok today app x :
  get tcl app = Ok x ->
  save_data tcl today app = Ok (write_file (record today x) app).
Proof. intros H. unfold save_data. rewrite H. reflexivity. Qed.

Lemma update_display_ok app x :
  get tcl app = Ok x ->
  exists w, update_display tcl app = Ok (set_widgets w app).
Proof. intros H. unfold update_display. rewrite H. simpl. eauto. Qed.

(** ** [add_water] *)

(** The early return of line 96. *)
Lemma add_water_at_goal today amount_ml app x :
  get tcl app = Ok x ->
  geb x goal = true ->
  add_water tcl today amount_ml app = Ok app.
Proof.
  intros Hget Hgoal. unfold add_water. rewrite Hget. cbn [bind].
  rewrite Hgoal. reflexivity.
Qed.

(** C1.  Once the intake has reached the goal, [add_water] returns at once
    for every amount: the DoubleVar, the file, the list of writes, the
    widgets and the dialogs are those of before the call. *)
Theorem add_water_noop_at_goal today amount_ml app x :
  get tcl app = Ok x ->
  geb x goal = true ->
  add_water tcl today amount_ml app = Ok app /\
  forall app',
    add_water tcl today amount_ml app = Ok app' ->
    current_intake app' = current_intake app /\
    data_file app' = data_file app /\
    dumped app' = dumped app.
Proof.
  intros Hget Hgoal.
  pose proof (add_water_at_goal today amount_ml app x Hget Hgoal) as Hadd.
  split; [exact Hadd|].
  intros app' Hadd'. rewrite Hadd in Hadd'. injection Hadd' as <-.
  repeat split.
Qed.

(** What [add_water] does below the goal, whatever the amount. *)
Lemma add_water_below_goal today amount_ml app x :
  get tcl app = Ok x ->
  geb x goal = false ->
  exists w,
    add_water tcl today amount_ml app =
    Ok ((if geb (add x amount_ml) goal && ltb (sub (add x amount_ml) amount_ml) goal
         then showinfo GoalReached else id)
          (write_file (record today (add x amount_ml))
             (set_widgets w (set_intake (PyNum (add x amount_ml)) app)))).
Proof.
  intros Hget Hgoal. unfold add_water. rewrite Hget. cbn [bind].
  rewrite Hgoal.
  destruct (update_display_ok _ _ (get_set_num (add x amount_ml) app)) as [w Hw].
  exists w. rewrite Hw. cbn [bind].
  rewrite (save_data_ok today _ (add x amount_ml)) by reflexivity.
  cbn [bind]. destruct (_ && _); reflexivity.
Qed.

(** C2.  Below the goal, [add_water] with a positive amount sets the intake
    to the old intake plus the amount (the binary64 sum Python computes) and
    writes that value, under today's date, to the file. *)
Theorem add_water_adds_and_saves today amount_ml app x :
  get tcl app = Ok x ->
  ltb zero amount_ml = true ->
  ltb x goal = true ->
  exists app',
    add_water tcl today amount_ml app = Ok app' /\
    current_intake app' = PyNum (add x amount_ml) /\
    data_file app' = Json (PyDict (record today (add x amount_ml))) /\
    dumped app' = record today (add x amount_ml) :: dumped app.
Proof.
  intros Hget _ Hlt.
  destruct (add_water_below_goal today amount_ml app x Hget (ltb_not_geb _ _ Hlt))
    as [w ->].
  eexists. split; [reflexivity|].
  destruct (_ && _); repeat split.
Qed.

(** The "Goal Reached!" box opens only on a call that takes the intake
    from below the goal to the goal or beyond. *)
Lemma goal_reached_only_on_crossing today amount_ml app app' x :
  get tcl app = Ok x ->
  add_water tcl today amount_ml app = Ok app' ->
  dialogs app' = dialogs app \/
  (dialogs app' = GoalReached :: dialogs app /\
   ltb x goal = true /\ geb (add x amount_ml) goal = true).
Proof.
  intros Hget Hadd. destruct (geb x goal) eqn:Hgoal.
  - rewrite (add_water_at_goal today amount_ml app x Hget Hgoal) in Hadd.
    injection Hadd as <-. left. reflexivity.
  - destruct (add_water_below_goal today amount_ml app x Hget Hgoal) as [w Hw].
    rewrite Hw in Hadd. injection Hadd as <-.
    destruct (geb (add x amount_ml) goal) eqn:Hnew; simpl; [|left; reflexivity].
    destruct (ltb _ goal); simpl; [|left; reflexivity].
    right. repeat split.
    apply not_geb_ltb; [|reflexivity|exact Hgoal].
    apply (add_not_nan_l x amount_ml), (geb_not_nan _ goal), Hnew.
Qed.

(** ** [save_data] *)

(** C4.  [save_data] leaves in the file exactly the dict with the keys
    ["date"] and ["intake"], today's date and the current intake, whatever
    the file held before. *)
Theorem save_data_overwrites today app x :
  get tcl app = Ok x ->
  exists app',
    save_data tcl today app = Ok app' /\
    data_file app' = Json (PyDict (record today x)) /\
    record today x !! "date" = Some (PyStr today) /\
    record today x !! "intake" = Some (PyNum x) /\
    (forall k : string, k <> "date" -> k <> "intake" -> record today x !! k = None) /\
    (forall file : disk,
       save_data tcl today
         {| current_intake := current_intake app; data_file := file;
            dumped := dumped app; widgets := widgets app;
            dialogs := dialogs app |} = Ok app').
Proof.
  intros Hget. exists (write_file (record today x) app).
  split; [apply save_data_ok, Hget|].
  split; [reflexivity|].
  split; [apply record_date|].
  split; [apply record_intake|].
  split; [apply record_other|].
  intros file. unfold save_data, get in *. simpl. rewrite Hget. reflexivity.
Qed.

(** ** [load_data] *)

(** The branch of lines 68-71. *)
Lemma load_data_other_date today app (d : gmap string pyval) :
  data_file app = Json (PyDict d) ->
  d !! "date" <> Some (PyStr today) ->
  load_data tcl today app =
  Ok (write_file (record today zero) (set_intake (PyNum zero) app)).
Proof.
  intros Hfile Hdate. unfold load_data. rewrite Hfile. simpl.
  rewrite (eq_str_other d today Hdate). reflexivity.
Qed.

(** C5.  A file whose date is not today's makes [load_data] set the intake
    to 0.0 and write, within the same call, the record with today's date
    and intake 0.0. *)
Theorem load_data_new_day today app (d : gmap string pyval) :
  data_file app = Json (PyDict d) ->
  d !! "date" <> Some (PyStr today) ->
  exists app',
    load_data tcl today app = Ok app' /\
    current_record tcl today app' = Ok (record today zero) /\
    data_file app' = Json (PyDict (record today zero)) /\
    dumped app' = record today zero :: dumped app.
Proof.
  intros Hfile Hdate. rewrite (load_data_other_date today app d Hfile Hdate).
  eexists. split; [reflexivity|]. repeat split.
Qed.

(** C6, amended.  With no file, or a file whose text is not JSON (an empty
    file is one), [load_data] raises nothing and leaves the record of a day
    rollover: today's date and intake 0.0.  These are the two exceptions of
    the [except] clause of line 72; other files that cannot be parsed make
    [load_data] raise. *)
Theorem load_data_missing_or_corrupt today app :
  data_file app = NoFile \/ data_file app = NotJson ->
  exists app',
    load_data tcl today app = Ok app' /\
    current_record tcl today app' = Ok (record today zero) /\
    forall app2 (d : gmap string pyval),
      data_file app2 = Json (PyDict d) ->
      d !! "date" <> Some (PyStr today) ->
      exists app2',
        load_data tcl today app2 = Ok app2' /\
        current_record tcl today app2' = current_record tcl today app'.
Proof.
  intros Hfile. exists (set_intake (PyNum zero) app).
  split; [unfold load_data; destruct Hfile as [-> | ->]; reflexivity|].
  split; [reflexivity|].
  intros app2 d Hfile2 Hdate.
  rewrite (load_data_other_date today app2 d Hfile2 Hdate).
  eexists. split; reflexivity.
Qed.


(** What [load_data] makes of a record of today, whatever is in memory. *)
Lemma load_data_record_of_today today x app :
  data_file app = Json (PyDict (record today x)) ->
  load_data tcl today app = Ok (set_intake (PyNum x) app).
Proof.
  intros Hfile. unfold load_data. rewrite Hfile. simpl.
  rewrite record_date, record_intake, eq_str_true. reflexivity.
Qed.

(** C8.  [save_data] followed by [load_data] on the same day gives back the
    record that was saved, read from the file: whatever the DoubleVar holds
    when [load_data] is called (any object [v] put there after the save, or
    the 0.0 of a new process started on the file), the record held after the
    load has the date and the intake of the record saved, and the load
    leaves the file as it is and writes nothing. *)
Theorem save_then_load today app x (v : pyval) :
  get tcl app = Ok x ->
  exists saved loaded restarted,
    current_record tcl today app = Ok (record today x) /\
    save_data tcl today app = Ok saved /\
    load_data tcl today (set_intake v saved) = Ok loaded /\
    current_record tcl today loaded = Ok (record today x) /\
    current_intake loaded = PyNum x /\
    data_file loaded = data_file saved /\
    dumped loaded = dumped saved /\
    load_data tcl today (startup (data_file saved)) = Ok restarted /\
    current_record tcl today restarted = Ok (record today x) /\
    data_file restarted = data_file saved /\
    dumped restarted = [].
Proof.
  intros Hget. exists (write_file (record today x) app).
  exists (set_intake (PyNum x) (set_intake v (write_file (record today x) app))).
  exists (set_intake (PyNum x) (startup (Json (PyDict (record today x))))).
  split; [unfold current_record; rewrite Hget; reflexivity|].
  split; [apply save_data_ok, Hget|].
  split; [apply load_data_record_of_today; reflexivity|].
  split; [reflexivity|]. split; [reflexivity|].
  split; [reflexivity|]. split; [reflexivity|].
  split; [apply load_data_record_of_today; reflexivity|].
  repeat split.
Qed.

(** ** [reset_day] *)

(** The confirmed branch, lines 112-114. *)
Lemma reset_day_yes today app :
  exists w,
    reset_day tcl today true app =
    Ok (write_file (record today zero) (set_widgets w (set_intake (PyNum zero) app))) /\
    status_label w = NeedMore (div (sub goal zero) (of_int 1000)).
Proof.
  unfold reset_day, update_display. rewrite get_set_num. cbn [bind].
  change (geb zero goal) with false. cbv iota.
  rewrite (save_data_ok today _ zero) by reflexivity.
  eexists. split; reflexivity.
Qed.

(** C7.  A confirmed [reset_day] sets the intake to 0.0 in every state and
    writes the zeroed record; the status label then asks for the whole goal
    ([DAILY_GOAL - 0.0] is the goal) and no "Goal Reached!" box opens. *)
Theorem reset_day_zeroes today app :
  exists app' w,
    reset_day tcl today true app = Ok app' /\
    current_intake app' = PyNum zero /\
    data_file app' = Json (PyDict (record today zero)) /\
    dumped app' = record today zero :: dumped app /\
    dialogs app' = dialogs app /\
    widgets app' = Some w /\
    status_label w = NeedMore (div (sub goal zero) (of_int 1000)) /\
    sub goal zero = goal.
Proof.
  destruct (reset_day_yes today app) as (w & Hreset & Hstatus).
  eexists. exists w. split; [exact Hreset|]. repeat split. exact Hstatus.
Qed.

End Correctness.

(** * Runs *)

Section Runs.

Variable tcl : pyval -> option float.

Lemma run_app evs1 evs2 app :
  run tcl (evs1 ++ evs2) app = (app' <- run tcl evs1 app ;; run tcl evs2 app').
Proof.
  revert app. induction evs1 as [|[today ev] evs1 IH]; intros app; simpl.
  - reflexivity.
  - destruct (handle tcl today ev app) as [app'|err]; simpl; [apply IH|reflexivity].
Qed.

Lemma positive_amounts_cons today ev evs :
  positive_amounts ((today, ev) :: evs) = true ->
  match ev with AddWater amount_ml => ltb zero amount_ml = true | _ => True end /\
  positive_amounts evs = true.
Proof.
  unfold positive_amounts. simpl. intros H.
  apply andb_prop in H as [H1 H2]. split; [|exact H2].
  destruct ev; auto.
Qed.

Lemma stored_nonneg_record today x :
  geb x zero = true -> stored_nonneg tcl (Json (PyDict (record today x))).
Proof.
  intros Hx d s Hd _. injection Hd as <-. rewrite record_intake.
  exists x. split; [reflexivity|exact Hx].
Qed.

Lemma load_data_nonneg today app app' :
  intake_nonneg tcl app ->
  load_data tcl today app = Ok app' ->
  intake_nonneg tcl app'.
Proof.
  intros [Hmem Hfile] Hload. unfold load_data in Hload.
  destruct (data_file app) as [| | | |data] eqn:Efile; try discriminate Hload.
  - injection Hload as <-. split; [exists zero; split; reflexivity|].
    simpl. rewrite Efile. exact Hfile.
  - injection Hload as <-. split; [exists zero; split; reflexivity|].
    simpl. rewrite Efile. exact Hfile.
  - destruct data as [| | | | | |d]; try discriminate Hload. simpl in Hload.
    destruct (d !! "date") as [saved|] eqn:Edate; simpl in Hload.
    + destruct saved as [| | | |s| |];
        try (injection Hload as <-;
             split; [exists zero; split; reflexivity
                    |apply stored_nonneg_record; reflexivity]).
      simpl in Hload. destruct (bool_decide (s = today)).
      * injection Hload as <-. split.
        -- simpl. apply (Hfile d s eq_refl Edate).
        -- simpl. rewrite Efile. exact Hfile.
      * injection Hload as <-.
        split; [exists zero; split; reflexivity
               |apply stored_nonneg_record; reflexivity].
    + injection Hload as <-.
      split; [exists zero; split; reflexivity
             |apply stored_nonneg_record; reflexivity].
Qed.

Lemma add_water_nonneg today amount_ml app app' :
  intake_nonneg tcl app ->
  ltb zero amount_ml = true ->
  add_water tcl today amount_ml app = Ok app' ->
  intake_nonneg tcl app'.
Proof.
  intros [(x & Hget & Hx) Hfile] Hpos Hadd.
  destruct (geb x goal) eqn:Hgoal.
  - rewrite (add_water_at_goal tcl today amount_ml app x Hget Hgoal) in Hadd.
    injection Hadd as <-. split; [exists x; auto|exact Hfile].
  - destruct (add_water_below_goal tcl today amount_ml app x Hget Hgoal) as [w Hw].
    rewrite Hw in Hadd. injection Hadd as <-.
    pose proof (add_nonneg x amount_ml Hx Hpos) as Hnew.
    destruct (_ && _); simpl;
      (split; [exists (add x amount_ml); split; [reflexivity|exact Hnew]
              |apply stored_nonneg_record, Hnew]).
Qed.

Lemma reset_day_nonneg today yes app app' :
  intake_nonneg tcl app ->
  reset_day tcl today yes app = Ok app' ->
  intake_nonneg tcl app'.
Proof.
  intros Hinv Hreset. destruct yes.
  - destruct (reset_day_yes tcl today app) as (w & H1 & _).
    rewrite H1 in Hreset. injection Hreset as <-. split.
    + exists zero. split; reflexivity.
    + apply stored_nonneg_record. reflexivity.
  - injection Hreset as <-. exact Hinv.
Qed.

Lemma run_nonneg evs :
  forall app app',
    intake_nonneg tcl app ->
    positive_amounts evs = true ->
    run tcl evs app = Ok app' ->
    intake_nonneg tcl app'.
Proof.
  induction evs as [|[today ev] evs IH]; intros app app' Hinv Hpos Hrun.
  - injection Hrun as <-. exact Hinv.
  - apply positive_amounts_cons in Hpos as [Hev Hpos]. simpl in Hrun.
    destruct (handle tcl today ev app) as [app1|err] eqn:Hstep;
      [|discriminate Hrun].
    simpl in Hrun. apply (IH app1 app'); [|exact Hpos|exact Hrun].
    destruct ev as [|amount_ml|yes]; simpl in Hstep.
    + exact (load_data_nonneg today app app1 Hinv Hstep).
    + exact (add_water_nonneg today amount_ml app app1 Hinv Hev Hstep).
    + exact (reset_day_nonneg today yes app app1 Hinv Hstep).
Qed.

(** After a reset, one call of [add_water] takes the intake to any positive
    amount, the goal notwithstanding. *)
Lemma reset_then_add today b app :
  ltb zero b = true ->
  exists app',
    run tcl [(today, ResetDay true); (today, AddWater b)] app = Ok app' /\
    get tcl app' = Ok b.
Proof.
  intros Hb. destruct (reset_day_yes tcl today app) as (w & H1 & _).
  set (app1 := write_file (record today zero)
                 (set_widgets w (set_intake (PyNum zero) app))) in H1.
  destruct (add_water_below_goal tcl today b app1 zero eq_refl eq_refl) as [w' Hw'].
  unfold run, handle. rewrite H1. cbn [bind]. rewrite Hw'. cbn [bind].
  rewrite (add_zero_l b Hb). clear Hw'.
  eexists. split; [reflexivity|]. destruct (geb b goal && _); reflexivity.
Qed.

(** C9, amended.  Let the intake stored in the file, when [load_data] can
    take one from it, be a non-negative number.  Then after the initial
    load and any calls of the handlers, with positive amounts, the intake in
    memory and the intake in the file are non-negative; and the intake has
    no upper bound: a reset and one call of [add_water] take it to any
    positive amount. *)
Theorem intake_nonneg_invariant today0 file evs app :
  stored_nonneg tcl file ->
  positive_amounts evs = true ->
  run tcl ((today0, Load) :: evs) (startup file) = Ok app ->
  intake_nonneg tcl app /\
  forall today b,
    ltb zero b = true ->
    exists app',
      run tcl (((today0, Load) :: evs) ++ [(today, ResetDay true); (today, AddWater b)])
        (startup file) = Ok app' /\
      get tcl app' = Ok b.
Proof.
  intros Hfile Hpos Hrun. split.
  - apply (run_nonneg ((today0, Load) :: evs) (startup file) app);
      [|exact Hpos|exact Hrun].
    split; [exists zero; split; reflexivity|exact Hfile].
  - intros today b Hb. rewrite run_app, Hrun. cbn [bind].
    apply reset_then_add, Hb.
Qed.

End Runs.

(** * The handlers on concrete states *)

(** At intake 2250.0 a further 100.0 changes nothing. *)
Lemma add_water_noop_at_goal_witness :
  let app := set_intake (PyNum (of_int 2250)) (startup NoFile) in
  get numbers_only app = Ok (of_int 2250) /\
  geb (of_int 2250) goal = true /\
  add_water numbers_only "2024-06-01" (of_int 100) app = Ok app.
Proof.
  intros app. split; [reflexivity|]. split; [reflexivity|].
  apply (add_water_noop_at_goal numbers_only "2024-06-01" (of_int 100) app (of_int 2250));
    reflexivity.
Defined.

(** At intake 1750.0 a bottle of 500 takes the intake to 2250.0. *)
Lemma add_water_adds_and_saves_witness :
  let app := set_intake (PyNum (of_int 1750)) (startup NoFile) in
  ltb zero (of_int 500) = true /\
  ltb (of_int 1750) goal = true /\
  add (of_int 1750) (of_int 500) = of_int 2250 /\
  exists app',
    add_water numbers_only "2024-06-01" (of_int 500) app = Ok app' /\
    current_intake app' = PyNum (add (of_int 1750) (of_int 500)) /\
    data_file app' =
      Json (PyDict (record "2024-06-01" (add (of_int 1750) (of_int 500)))) /\
    dumped app' =
      record "2024-06-01" (add (of_int 1750) (of_int 500)) :: dumped app.
Proof.
  intros app. split; [reflexivity|]. split; [reflexivity|]. split; [reflexivity|].
  apply (add_water_adds_and_saves numbers_only "2024-06-01" (of_int 500) app (of_int 1750));
    reflexivity.
Defined.

(** C3 fails on the code.  From a first run, the custom amount
    [1999.9999999999998] leaves the intake just below the goal.  The glass of
    250 then gives [2250.0]: the sum lies halfway between two doubles and
    rounds to the even one.  [new_intake - amount_ml] is [2000.0], which is
    not below the goal, so line 104 fails and no "Goal Reached!" box opens,
    although the intake went from below the goal to above it. *)
Theorem goal_crossing_unreported :
  exists pre post,
    run numbers_only
      [("2024-06-01", Load); ("2024-06-01", AddWater below_goal)]
      (startup NoFile) = Ok pre /\
    get numbers_only pre = Ok below_goal /\
    ltb below_goal goal = true /\
    add_water numbers_only "2024-06-01" (of_int 250) pre = Ok post /\
    get numbers_only post = Ok (of_int 2250) /\
    geb (of_int 2250) goal = true /\
    sub (of_int 2250) (of_int 250) = goal /\
    dialogs pre = [] /\
    dialogs post = [].
Proof.
  do 2 eexists. split; [vm_compute; reflexivity|].
  split; [reflexivity|]. split; [reflexivity|].
  split; [vm_compute; reflexivity|].
  repeat split.
Qed.

(** Saving the intake 750.0 over a file that was not JSON. *)
Lemma save_data_overwrites_witness :
  let app := set_intake (PyNum (of_int 750)) (startup NotJson) in
  get numbers_only app = Ok (of_int 750) /\
  exists app',
    save_data numbers_only "2024-06-01" app = Ok app' /\
    data_file app' = Json (PyDict (record "2024-06-01" (of_int 750))).
Proof.
  intros app. split; [reflexivity|].
  destruct (save_data_overwrites numbers_only "2024-06-01" app (of_int 750) eq_refl)
    as (app' & Hsave & Hfile & _).
  exists app'. split; [exact Hsave|exact Hfile].
Defined.

(** Loading the record of the day before. *)
Lemma load_data_new_day_witness :
  let d := record "2024-05-31" (of_int 750) in
  let app := startup (Json (PyDict d)) in
  d !! "date" <> Some (PyStr "2024-06-01") /\
  exists app',
    load_data numbers_only "2024-06-01" app = Ok app' /\
    current_record numbers_only "2024-06-01" app' = Ok (record "2024-06-01" zero) /\
    data_file app' = Json (PyDict (record "2024-06-01" zero)) /\
    dumped app' = record "2024-06-01" zero :: dumped app.
Proof.
  intros d app.
  assert (Hdate : d !! "date" <> Some (PyStr "2024-06-01"))
    by (vm_compute; discriminate).
  split; [exact Hdate|].
  exact (load_data_new_day numbers_only "2024-06-01" app d eq_refl Hdate).
Defined.

(** Loading on a first run, when there is no file. *)
Lemma load_data_missing_or_corrupt_witness :
  exists app',
    load_data numbers_only "2024-06-01" (startup NoFile) = Ok app' /\
    current_record numbers_only "2024-06-01" app' = Ok (record "2024-06-01" zero).
Proof.
  destruct (load_data_missing_or_corrupt numbers_only "2024-06-01" (startup NoFile)
              (or_introl eq_refl)) as (app' & Hload & Hrec & _).
  exists app'. split; [exact Hload|exact Hrec].
Defined.

(** C6 as stated fails: the [except] clause of line 72 names
    [FileNotFoundError] and [json.JSONDecodeError] only.  A file whose bytes
    do not decode cannot be parsed, and [load_data] raises
    [UnicodeDecodeError] to its caller, [__init__]; so it does on JSON nested
    too deeply ([RecursionError]) and on JSON that is no object, here the
    empty list ([AttributeError]). *)
Lemma load_data_unparsable_raises :
  load_data numbers_only "2024-06-01" (startup NotText) = Raise UnicodeDecodeError /\
  init numbers_only "2024-06-01" NotText = Raise UnicodeDecodeError /\
  load_data numbers_only "2024-06-01" (startup TooDeep) = Raise RecursionError /\
  load_data numbers_only "2024-06-01" (startup (Json (PyList []))) =
    Raise AttributeError /\
  ~ (exists app',
       load_data numbers_only "2024-06-01" (startup NotText) = Ok app').
Proof.
  repeat (split; [reflexivity|]).
  intros [app' H]. discriminate H.
Qed.


(** Saving the intake 750.0, then loading with 125.0 in the DoubleVar. *)
Lemma save_then_load_witness :
  let app := set_intake (PyNum (of_int 750)) (startup NoFile) in
  get numbers_only app = Ok (of_int 750) /\
  exists saved loaded restarted,
    current_record numbers_only "2024-06-01" app =
      Ok (record "2024-06-01" (of_int 750)) /\
    save_data numbers_only "2024-06-01" app = Ok saved /\
    load_data numbers_only "2024-06-01" (set_intake (PyNum (of_int 125)) saved) =
      Ok loaded /\
    current_record numbers_only "2024-06-01" loaded =
      Ok (record "2024-06-01" (of_int 750)) /\
    current_intake loaded = PyNum (of_int 750) /\
    data_file loaded = data_file saved /\
    dumped loaded = dumped saved /\
    load_data numbers_only "2024-06-01" (startup (data_file saved)) = Ok restarted /\
    current_record numbers_only "2024-06-01" restarted =
      Ok (record "2024-06-01" (of_int 750)) /\
    data_file restarted = data_file saved /\
    dumped restarted = [].
Proof.
  intros app. split; [reflexivity|].
  exact (save_then_load numbers_only "2024-06-01" app (of_int 750)
           (PyNum (of_int 125)) eq_refl).
Defined.

(** C9 as stated fails: a file dated today that holds the intake -5.0 is
    valid JSON, and [load_data] puts -5.0 into the DoubleVar. *)
Lemma negative_stored_intake_loaded :
  let file := Json (PyDict (record "2024-06-01" (of_int (-5)))) in
  positive_amounts [] = true /\
  exists app,
    run numbers_only [("2024-06-01", Load)] (startup file) = Ok app /\
    get numbers_only app = Ok (of_int (-5)) /\
    geb (of_int (-5)) zero = false /\
    ~ intake_nonneg numbers_only app.
Proof.
  intros file. split; [reflexivity|].
  eexists. split; [vm_compute; reflexivity|].
  split; [reflexivity|]. split; [reflexivity|].
  intros [(x & Hget & Hx) _]. injection Hget as <-. discriminate Hx.
Qed.

(** A run over two days from the record of 1750.0 saved earlier. *)
Lemma intake_nonneg_invariant_witness :
  let file := Json (PyDict (record "2024-06-01" (of_int 1750))) in
  let evs := [("2024-06-01", AddWater (of_int 500));
              ("2024-06-01", AddWater (of_int 100));
              ("2024-06-02", ResetDay true);
              ("2024-06-02", AddWater (of_int 250))] in
  stored_nonneg numbers_only file /\
  positive_amounts evs = true /\
  exists app,
    run numbers_only (("2024-06-01", Load) :: evs) (startup file) = Ok app /\
    get numbers_only app = Ok (of_int 250) /\
    intake_nonneg numbers_only app.
Proof.
  intros file evs.
  assert (Hfile : stored_nonneg numbers_only file)
    by (apply stored_nonneg_record; reflexivity).
  split; [exact Hfile|]. split; [reflexivity|].
  eexists. split; [vm_compute; reflexivity|]. split; [reflexivity|].
  eapply proj1.
  apply (intake_nonneg_invariant numbers_only "2024-06-01" file evs _ Hfile eq_refl).
  vm_compute; reflexivity.
Defined.

(** * Loading, restarting and what the file holds *)

Section Loading.

Variable tcl : pyval -> option float.

(** The three ways [load_data] returns. *)
Lemma load_data_inv today app app1 :
  load_data tcl today app = Ok app1 ->
  ((data_file app = NoFile \/ data_file app = NotJson) /\
   app1 = set_intake (PyNum zero) app) \/
  (exists d : gmap string pyval,
     data_file app = Json (PyDict d) /\
     d !! "date" = Some (PyStr today) /\
     app1 = set_intake (match d !! "intake" with
                        | Some v => v
                        | None => PyNum zero
                        end) app) \/
  (exists d : gmap string pyval,
     data_file app = Json (PyDict d) /\
     d !! "date" <> Some (PyStr today) /\
     app1 = write_file (record today zero) (set_intake (PyNum zero) app)).
Proof.
  intros Hload.
  destruct (data_file app) as [| | | |data] eqn:Efile;
    try (unfold load_data in Hload; rewrite Efile in Hload; discriminate Hload).
  - left. unfold load_data in Hload. rewrite Efile in Hload.
    injection Hload as <-. auto.
  - left. unfold load_data in Hload. rewrite Efile in Hload.
    injection Hload as <-. auto.
  - right. destruct data as [| | | | | |d];
      try (unfold load_data in Hload; rewrite Efile in Hload; discriminate Hload).
    assert (Hcases : d !! "date" = Some (PyStr today) \/
                     d !! "date" <> Some (PyStr today)).
    { destruct (d !! "date") as [[| | | |s| |]|]; try (right; congruence).
      destruct (decide (s = today)) as [->|Hne]; [left|right]; congruence. }
    destruct Hcases as [Hdate|Hdate].
    + left. exists d. split; [reflexivity|]. split; [exact Hdate|].
      unfold load_data in Hload. rewrite Efile in Hload. simpl in Hload.
      rewrite Hdate, eq_str_true in Hload. injection Hload as <-. reflexivity.
    + right. exists d. split; [reflexivity|]. split; [exact Hdate|].
      rewrite (load_data_other_date tcl today app d Efile Hdate) in Hload.
      injection Hload as <-. reflexivity.
Qed.

Lemma load_data_again today app app1 :
  load_data tcl today app = Ok app1 ->
  load_data tcl today app1 = Ok app1.
Proof.
  intros Hload.
  destruct (load_data_inv today app app1 Hload)
    as [[Hfile ->]|[(d & Hfile & Hdate & ->)|(d & Hfile & Hdate & ->)]].
  - unfold load_data. simpl. destruct Hfile as [-> | ->]; reflexivity.
  - unfold load_data. simpl. rewrite Hfile. simpl.
    rewrite Hdate, eq_str_true. reflexivity.
  - unfold load_data. simpl.
    rewrite record_date, record_intake, eq_str_true. reflexivity.
Qed.

(** X1.  A file that holds JSON other than an object (a list, a number, a
    string, null) is not caught by the [except] clause of [load_data]: the
    call raises [AttributeError], and so does the start of the application. *)
Theorem load_data_not_an_object today app data :
  data_file app = Json data ->
  (forall d : gmap string pyval, data <> PyDict d) ->
  load_data tcl today app = Raise AttributeError /\
  init tcl today (Json data) = Raise AttributeError.
Proof.
  intros Hfile Hdata. unfold init, load_data. rewrite Hfile. simpl.
  destruct data as [| | | | | |d]; try (split; reflexivity).
  destruct (Hdata d eq_refl).
Qed.

(** X2.  [load_data] writes the file on a day rollover only.  In every other
    successful call (no file, no JSON, a record of today) the file stays as
    it is, nothing is written, and neither widgets nor dialogs change. *)
Theorem load_data_writes_on_rollover_only today app app1 :
  load_data tcl today app = Ok app1 ->
  widgets app1 = widgets app /\
  dialogs app1 = dialogs app /\
  ((exists d : gmap string pyval,
      data_file app = Json (PyDict d) /\ d !! "date" <> Some (PyStr today)) \/
   (data_file app1 = data_file app /\ dumped app1 = dumped app)).
Proof.
  intros Hload.
  destruct (load_data_inv today app app1 Hload)
    as [[Hfile ->]|[(d & Hfile & Hdate & ->)|(d & Hfile & Hdate & ->)]];
    (split; [reflexivity|]); (split; [reflexivity|]).
  - right. split; reflexivity.
  - right. split; reflexivity.
  - left. exists d. split; assumption.
Qed.

(** X3.  Loading twice on the same day is loading once: a second
    [load_data] returns the state the first one left, writing nothing. *)
Theorem load_data_idempotent today app app1 :
  load_data tcl today app = Ok app1 ->
  load_data tcl today app1 = Ok app1.
Proof. exact (load_data_again today app app1). Qed.

(** Every handler called on the day [today] leaves a state that a further
    [load_data] on that day does not change. *)
Lemma handle_loaded today ev app app1 :
  load_data tcl today app = Ok app ->
  handle tcl today ev app = Ok app1 ->
  load_data tcl today app1 = Ok app1.
Proof.
  intros Hfix Hstep. destruct ev as [|amount_ml|yes]; simpl in Hstep.
  - exact (load_data_again today app app1 Hstep).
  - destruct (get tcl app) as [x|err] eqn:Hget;
      [|unfold add_water in Hstep; rewrite Hget in Hstep; discriminate Hstep].
    destruct (geb x goal) eqn:Hgoal.
    + rewrite (add_water_at_goal tcl today amount_ml app x Hget Hgoal) in Hstep.
      injection Hstep as <-. exact Hfix.
    + destruct (add_water_below_goal tcl today amount_ml app x Hget Hgoal) as [w Hw].
      rewrite Hw in Hstep. injection Hstep as <-.
      unfold load_data. destruct (_ && _); simpl;
        rewrite record_date, record_intake, eq_str_true; reflexivity.
  - destruct yes.
    + destruct (reset_day_yes tcl today app) as (w & Hreset & _).
      rewrite Hreset in Hstep. injection Hstep as <-.
      unfold load_data. simpl.
      rewrite record_date, record_intake, eq_str_true. reflexivity.
    + injection Hstep as <-. exact Hfix.
Qed.

Lemma run_loaded today evs :
  forall app app1,
    all_on today evs = true ->
    load_data tcl today app = Ok app ->
    run tcl evs app = Ok app1 ->
    load_data tcl today app1 = Ok app1.
Proof.
  induction evs as [|[day ev] evs IH]; intros app app1 Hday Hfix Hrun.
  - injection Hrun as <-. exact Hfix.
  - simpl in Hday. apply andb_prop in Hday as [Hd Hday].
    apply bool_decide_eq_true in Hd. simpl in Hd. subst day.
    simpl in Hrun.
    destruct (handle tcl today ev app) as [app'|err] eqn:Hstep;
      [|discriminate Hrun].
    simpl in Hrun.
    exact (IH app' app1 Hday (handle_loaded today ev app app' Hfix Hstep) Hrun).
Qed.

Lemma restart_of_loaded today app :
  load_data tcl today app = Ok app ->
  exists app2,
    load_data tcl today (startup (data_file app)) = Ok app2 /\
    current_intake app2 = current_intake app /\
    data_file app2 = data_file app /\
    dumped app2 = [].
Proof.
  intros Hfix.
  destruct (load_data_inv today app app Hfix)
    as [[Hfile Heq]|[(d & Hfile & Hdate & Heq)|(d & Hfile & Hdate & Heq)]].
  - pose proof (f_equal current_intake Heq) as Hmem. simpl in Hmem.
    exists (set_intake (PyNum zero) (startup (data_file app))).
    split; [unfold load_data; simpl; destruct Hfile as [-> | ->]; reflexivity|].
    split; [rewrite Hmem; reflexivity|]. split; reflexivity.
  - pose proof (f_equal current_intake Heq) as Hmem. simpl in Hmem.
    eexists. split.
    + unfold load_data. simpl. rewrite Hfile. simpl.
      rewrite Hdate, eq_str_true. reflexivity.
    + split; [rewrite Hmem; reflexivity|]. split; [|reflexivity].
      simpl. rewrite Hfile. reflexivity.
  - apply (f_equal (fun a => length (dumped a))) in Heq. simpl in Heq. lia.
Qed.

(** X4.  What was entered is there after a restart on the same day: after
    the initial load and any handlers called that day, starting the
    application anew on the file left behind loads the intake that was in
    memory, leaves the file as it is and writes nothing. *)
Theorem restart_restores_intake today file evs app :
  all_on today evs = true ->
  run tcl ((today, Load) :: evs) (startup file) = Ok app ->
  exists app2,
    load_data tcl today (startup (data_file app)) = Ok app2 /\
    current_intake app2 = current_intake app /\
    data_file app2 = data_file app /\
    dumped app2 = [].
Proof.
  intros Hday Hrun. apply restart_of_loaded.
  simpl in Hrun.
  destruct (load_data tcl today (startup file)) as [app0|err] eqn:Hload;
    [|discriminate Hrun].
  simpl in Hrun.
  exact (run_loaded today evs app0 app Hday
           (load_data_again today _ app0 Hload) Hrun).
Qed.

(** One handler keeps the file and the DoubleVar in step: either nothing
    was written, or the last write is the record of the intake in memory. *)
Lemma handle_mirrors (app0 : App) today ev app app1 :
  (dumped app = dumped app0 /\ data_file app = data_file app0) \/
  (exists day x rest,
     dumped app = record day x :: rest /\
     data_file app = Json (PyDict (record day x)) /\
     current_intake app = PyNum x) ->
  handle tcl today ev app = Ok app1 ->
  (dumped app1 = dumped app0 /\ data_file app1 = data_file app0) \/
  (exists day x rest,
     dumped app1 = record day x :: rest /\
     data_file app1 = Json (PyDict (record day x)) /\
     current_intake app1 = PyNum x).
Proof.
  intros Hinv Hstep. destruct ev as [|amount_ml|yes]; simpl in Hstep.
  - destruct (load_data_inv today app app1 Hstep)
      as [[Hfile ->]|[(d & Hfile & Hdate & ->)|(d & Hfile & Hdate & ->)]].
    + destruct Hinv as [Hinv|(day & x & rest & Hd & Hf & Hm)]; [left; exact Hinv|].
      rewrite Hf in Hfile. destruct Hfile; discriminate.
    + destruct Hinv as [Hinv|(day & x & rest & Hd & Hf & Hm)]; [left; exact Hinv|].
      right. exists day, x, rest. split; [exact Hd|]. split; [exact Hf|].
      rewrite Hf in Hfile. injection Hfile as <-.
      simpl. rewrite record_intake. reflexivity.
    + right. exists today, zero, (dumped app). repeat split.
  - destruct (get tcl app) as [x|err] eqn:Hget;
      [|unfold add_water in Hstep; rewrite Hget in Hstep; discriminate Hstep].
    destruct (geb x goal) eqn:Hgoal.
    + rewrite (add_water_at_goal tcl today amount_ml app x Hget Hgoal) in Hstep.
      injection Hstep as <-. exact Hinv.
    + destruct (add_water_below_goal tcl today amount_ml app x Hget Hgoal) as [w Hw].
      rewrite Hw in Hstep. injection Hstep as <-.
      right. exists today, (add x amount_ml), (dumped app).
      destruct (_ && _); repeat split.
  - destruct yes.
    + destruct (reset_day_yes tcl today app) as (w & Hreset & _).
      rewrite Hreset in Hstep. injection Hstep as <-.
      right. exists today, zero, (dumped app). repeat split.
    + injection Hstep as <-. exact Hinv.
Qed.

Lemma run_mirrors (app0 : App) evs :
  forall app_now app,
    ((dumped app_now = dumped app0 /\ data_file app_now = data_file app0) \/
     (exists day x rest,
        dumped app_now = record day x :: rest /\
        data_file app_now = Json (PyDict (record day x)) /\
        current_intake app_now = PyNum x)) ->
    run tcl evs app_now = Ok app ->
    (dumped app = dumped app0 /\ data_file app = data_file app0) \/
    (exists day x rest,
       dumped app = record day x :: rest /\
       data_file app = Json (PyDict (record day x)) /\
       current_intake app = PyNum x).
Proof.
  induction evs as [|[day ev] evs IH]; intros app_now app Hinv Hrun.
  - injection Hrun as <-. exact Hinv.
  - simpl in Hrun.
    destruct (handle tcl day ev app_now) as [app1|err] eqn:Hstep;
      [|discriminate Hrun].
    simpl in Hrun.
    exact (IH app1 app (handle_mirrors app0 day ev app_now app1 Hinv Hstep) Hrun).
Qed.

(** X5.  The file never lags behind the DoubleVar.  After any calls of the
    handlers, on whatever days, either nothing has been written and the file
    is the one found at the start, or the file holds the record written
    last, and its intake is the number in the DoubleVar. *)
Theorem file_mirrors_memory file evs app :
  run tcl evs (startup file) = Ok app ->
  (dumped app = [] /\ data_file app = file) \/
  (exists day x rest,
     dumped app = record day x :: rest /\
     data_file app = Json (PyDict (record day x)) /\
     current_intake app = PyNum x).
Proof.
  intros Hrun.
  exact (run_mirrors (startup file) evs (startup file) app
           (or_introl (conj eq_refl eq_refl)) Hrun).
Qed.

(** ** Start-up *)

(** X6.  When the record of today holds an intake that Tcl cannot read as a
    double, [load_data] succeeds but the application does not start: the
    first [update_display] raises [TclError]. *)
Theorem init_unreadable_intake today (d : gmap string pyval) v :
  d !! "date" = Some (PyStr today) ->
  d !! "intake" = Some v ->
  getdouble tcl v = Raise TclError ->
  load_data tcl today (startup (Json (PyDict d))) =
    Ok (set_intake v (startup (Json (PyDict d)))) /\
  init tcl today (Json (PyDict d)) = Raise TclError.
Proof.
  intros Hdate Hintake Hread.
  assert (Hload : load_data tcl today (startup (Json (PyDict d))) =
                  Ok (set_intake v (startup (Json (PyDict d))))).
  { unfold load_data. simpl. rewrite Hdate, Hintake, eq_str_true. reflexivity. }
  split; [exact Hload|].
  unfold init. rewrite Hload. cbn [bind].
  unfold update_display, get. simpl current_intake. rewrite Hread. reflexivity.
Qed.

End Loading.

(** * The display and the "Goal Reached!" box *)

Section Display.

Variable tcl : pyval -> option float.

Lemma update_display_again app app1 :
  update_display tcl app = Ok app1 ->
  update_display tcl app1 = Ok app1.
Proof.
  unfold update_display, get. intros H.
  destruct (getdouble tcl (current_intake app)) as [x|err] eqn:Hget;
    [|discriminate H].
  cbn [bind] in H. injection H as <-.
  simpl current_intake. rewrite Hget. reflexivity.
Qed.

Lemma update_display_write_file data app :
  update_display tcl app = Ok app ->
  update_display tcl (write_file data app) = Ok (write_file data app).
Proof.
  unfold update_display, get. simpl current_intake. intros H.
  destruct (getdouble tcl (current_intake app)) as [x|err]; [|discriminate H].
  cbn [bind] in *. injection H as H.
  apply (f_equal widgets) in H. simpl in H.
  unfold set_widgets, write_file. simpl. rewrite H. reflexivity.
Qed.

Lemma update_display_showinfo d app :
  update_display tcl app = Ok app ->
  update_display tcl (showinfo d app) = Ok (showinfo d app).
Proof.
  unfold update_display, get. simpl current_intake. intros H.
  destruct (getdouble tcl (current_intake app)) as [x|err]; [|discriminate H].
  cbn [bind] in *. injection H as H.
  apply (f_equal widgets) in H. simpl in H.
  unfold set_widgets, showinfo. simpl. rewrite H. reflexivity.
Qed.

(** [add_water] below the goal, with the widgets it leaves. *)
Lemma add_water_below_goal_shown today amount_ml app x :
  get tcl app = Ok x ->
  geb x goal = false ->
  exists shown,
    update_display tcl (set_intake (PyNum (add x amount_ml)) app) = Ok shown /\
    add_water tcl today amount_ml app =
    Ok ((if geb (add x amount_ml) goal && ltb (sub (add x amount_ml) amount_ml) goal
         then showinfo GoalReached else id)
          (write_file (record today (add x amount_ml)) shown)).
Proof.
  intros Hget Hgoal. unfold add_water. rewrite Hget. cbn [bind].
  rewrite Hgoal.
  destruct (update_display_ok tcl _ _ (get_set_num tcl (add x amount_ml) app))
    as [w Hw].
  eexists. split; [exact Hw|]. rewrite Hw. cbn [bind].
  rewrite (save_data_ok tcl today _ (add x amount_ml)) by reflexivity.
  cbn [bind]. destruct (_ && _); reflexivity.
Qed.

Lemma handle_displayed today ev app app1 :
  match ev with Load => False | _ => True end ->
  update_display tcl app = Ok app ->
  handle tcl today ev app = Ok app1 ->
  update_display tcl app1 = Ok app1.
Proof.
  intros Hev Hfix Hstep. destruct ev as [|amount_ml|yes]; simpl in Hstep.
  - contradiction.
  - destruct (get tcl app) as [x|err] eqn:Hget;
      [|unfold add_water in Hstep; rewrite Hget in Hstep; discriminate Hstep].
    destruct (geb x goal) eqn:Hgoal.
    + rewrite (add_water_at_goal tcl today amount_ml app x Hget Hgoal) in Hstep.
      injection Hstep as <-. exact Hfix.
    + destruct (add_water_below_goal_shown today amount_ml app x Hget Hgoal)
        as (shown & Hshown & Hadd).
      rewrite Hadd in Hstep. injection Hstep as <-.
      pose proof (update_display_write_file (record today (add x amount_ml)) shown
                    (update_display_again _ _ Hshown)) as Hw.
      destruct (_ && _); [apply update_display_showinfo|]; exact Hw.
  - destruct yes; [|injection Hstep as <-; exact Hfix].
    unfold reset_day in Hstep.
    destruct (update_display tcl (set_intake (PyNum zero) app)) as [shown|err] eqn:Hshown;
      [|discriminate Hstep].
    cbn [bind] in Hstep.
    pose proof (update_display_again _ _ Hshown) as Hs.
    assert (Hget : get tcl shown = Ok zero).
    { unfold update_display in Hshown. rewrite get_set_num in Hshown.
      cbn [bind] in Hshown. injection Hshown as <-. reflexivity. }
    rewrite (save_data_ok tcl today shown zero Hget) in Hstep.
    injection Hstep as <-. apply update_display_write_file, Hs.
Qed.

(** X7.  The widgets always show the intake in memory: once the application
    has started, after any calls of [add_water] and [reset_day] a further
    [update_display] would change nothing. *)
Theorem display_follows_intake today0 file evs app0 app :
  init tcl today0 file = Ok app0 ->
  no_load evs = true ->
  run tcl evs app0 = Ok app ->
  update_display tcl app = Ok app.
Proof.
  intros Hinit Hevs Hrun.
  assert (H0 : update_display tcl app0 = Ok app0).
  { unfold init in Hinit.
    destruct (load_data tcl today0 (startup file)) as [a|err]; [|discriminate Hinit].
    exact (update_display_again a app0 Hinit). }
  clear Hinit. revert app0 H0 Hevs Hrun.
  induction evs as [|[day ev] evs IH]; intros app0 H0 Hevs Hrun.
  - injection Hrun as <-. exact H0.
  - simpl in Hevs. apply andb_prop in Hevs as [Hev Hevs]. simpl in Hrun.
    destruct (handle tcl day ev app0) as [app1|err] eqn:Hstep;
      [|discriminate Hrun].
    simpl in Hrun. apply (IH app1); [|exact Hevs|exact Hrun].
    apply (handle_displayed day ev app0 app1); [|exact H0|exact Hstep].
    destruct ev; [discriminate Hev|exact I|exact I].
Qed.

(** Once the goal is met, calls of [add_water] change nothing. *)
Lemma run_at_goal evs :
  forall app x,
    adds_only evs = true ->
    get tcl app = Ok x ->
    geb x goal = true ->
    run tcl evs app = Ok app.
Proof.
  induction evs as [|[day ev] evs IH]; intros app x Hevs Hget Hgoal.
  - reflexivity.
  - simpl in Hevs. apply andb_prop in Hevs as [Hev Hevs].
    destruct ev as [|amount_ml|yes]; try discriminate Hev.
    simpl. rewrite (add_water_at_goal tcl day amount_ml app x Hget Hgoal).
    cbn [bind]. exact (IH app x Hevs Hget Hgoal).
Qed.

(** X8.  However many amounts are added, of whatever size, the
    "Goal Reached!" box opens at most once; and when it has opened, the
    intake is at or above the goal. *)
Theorem goal_reached_at_most_once evs :
  forall app0 app,
    adds_only evs = true ->
    run tcl evs app0 = Ok app ->
    dialogs app = dialogs app0 \/
    (dialogs app = GoalReached :: dialogs app0 /\
     exists x, get tcl app = Ok x /\ geb x goal = true).
Proof.
  induction evs as [|[day ev] evs IH]; intros app0 app Hevs Hrun.
  - injection Hrun as <-. left. reflexivity.
  - pose proof Hevs as Hall. simpl in Hevs.
    apply andb_prop in Hevs as [Hev Hevs].
    destruct ev as [|amount_ml|yes]; try discriminate Hev.
    simpl in Hrun.
    destruct (get tcl app0) as [x|err] eqn:Hget;
      [|unfold add_water in Hrun; rewrite Hget in Hrun; discriminate Hrun].
    destruct (geb x goal) eqn:Hgoal.
    + rewrite (add_water_at_goal tcl day amount_ml app0 x Hget Hgoal) in Hrun.
      cbn [bind] in Hrun. exact (IH app0 app Hevs Hrun).
    + destruct (add_water_below_goal tcl day amount_ml app0 x Hget Hgoal) as [w Hw].
      rewrite Hw in Hrun. cbn [bind] in Hrun. clear Hw.
      destruct (geb (add x amount_ml) goal) eqn:Hnew.
      * rewrite (run_at_goal evs _ (add x amount_ml) Hevs) in Hrun;
          [|destruct (_ && _); reflexivity|exact Hnew].
        injection Hrun as <-.
        destruct (ltb _ goal); simpl; [right|left; reflexivity].
        split; [reflexivity|]. exists (add x amount_ml). split; [reflexivity|exact Hnew].
      * simpl in Hrun. exact (IH _ app Hevs Hrun).
Qed.

End Display.

(** * The buttons and the custom entry *)

Section Buttons.

Variable tcl : pyval -> option float.

(** One press at intake [250 * k]. *)
Lemma press_step today b app k :
  0 <= k <= 9 ->
  get tcl app = Ok (of_int (250 * k)) ->
  exists app1 k1,
    press tcl today b app = Ok app1 /\
    k <= k1 <= 9 /\
    (8 <= k -> k1 = k) /\
    get tcl app1 = Ok (of_int (250 * k1)) /\
    dialogs app1 =
      (if (k <? 8) && (8 <=? k1) then GoalReached :: dialogs app else dialogs app).
Proof.
  intros Hk Hget. unfold press.
  assert (Hcases : k = 0 \/ k = 1 \/ k = 2 \/ k = 3 \/ k = 4 \/
                   k = 5 \/ k = 6 \/ k = 7 \/ k = 8 \/ k = 9) by lia.
  destruct b;
    repeat (destruct Hcases as [-> | Hcases]); try subst k;
    first
      [ exists app;
        match type of Hget with
        | _ = Ok (of_int (250 * ?j)) => exists j
        end;
        split; [apply (add_water_at_goal tcl today _ app _ Hget); reflexivity|];
        split; [lia|]; split; [reflexivity|]; split; [exact Hget|reflexivity]
      | match goal with
        | |- context [add_water tcl today ?amt app] =>
            destruct (add_water_below_goal tcl today amt app _ Hget eq_refl) as [w Hw]
        end;
        eexists;
        match goal with
        | |- context [button_amount Glass] =>
            match type of Hget with
            | _ = Ok (of_int (250 * ?j)) => exists (j + 1)
            end
        | |- context [button_amount Bottle] =>
            match type of Hget with
            | _ = Ok (of_int (250 * ?j)) => exists (j + 2)
            end
        end;
        split; [exact Hw|];
        split; [lia|]; split; [lia|]; split; vm_compute; reflexivity ].
Qed.

Lemma presses_run (d0 : list dialog) l :
  forall app k,
    0 <= k <= 9 ->
    get tcl app = Ok (of_int (250 * k)) ->
    dialogs app = (if k <? 8 then d0 else GoalReached :: d0) ->
    exists app' k',
      run tcl (presses l) app = Ok app' /\
      0 <= k' <= 9 /\
      get tcl app' = Ok (of_int (250 * k')) /\
      dialogs app' = (if k' <? 8 then d0 else GoalReached :: d0).
Proof.
  induction l as [|[day b] l IH]; intros app k Hk Hget Hdia.
  - exists app, k. auto.
  - destruct (press_step day b app k Hk Hget)
      as (app1 & k1 & Hpress & Hk1 & Hstay & Hget1 & Hdia1).
    assert (Hinv : dialogs app1 = (if k1 <? 8 then d0 else GoalReached :: d0)).
    { rewrite Hdia1, Hdia.
      destruct (Z.ltb_spec k 8) as [Hlt|Hge].
      - destruct (Z.leb_spec 8 k1); destruct (Z.ltb_spec k1 8);
          try lia; reflexivity.
      - rewrite (Hstay Hge). destruct (Z.ltb_spec k 8); [lia|reflexivity]. }
    destruct (IH app1 k1 ltac:(lia) Hget1 Hinv) as (app' & k' & Hrun & Hrest).
    exists app', k'. split; [|exact Hrest].
    simpl. unfold press in Hpress. rewrite Hpress. exact Hrun.
Qed.

(** X9.  With the two buttons alone the notification is right.  From intake
    0.0, any presses of "Add Glass" and "Add Bottle" raise nothing and leave
    the intake at a multiple of 250 no larger than 2250; the "Goal Reached!"
    box has opened, once, exactly when the intake has reached 2000. *)
Theorem buttons_report_goal l app0 :
  get tcl app0 = Ok zero ->
  exists app k,
    run tcl (presses l) app0 = Ok app /\
    0 <= k <= 9 /\
    get tcl app = Ok (of_int (250 * k)) /\
    dialogs app =
      (if k <? 8 then dialogs app0 else GoalReached :: dialogs app0).
Proof.
  intros Hget.
  exact (presses_run (dialogs app0) l app0 0 ltac:(lia) Hget eq_refl).
Qed.

(** ** [add_custom_amount] *)

Variable py_float : string -> option float.

(** X10.  A text that is no number, or a number that is not positive (zero,
    a negative number, NaN), changes nothing but the boxes shown: the
    application state and the text of the entry stay, and one box opens,
    the error box for a text that is no number, the warning otherwise. *)
Theorem add_custom_amount_rejects today win :
  py_float (custom_entry win) = None \/
  (exists amount,
     py_float (custom_entry win) = Some amount /\ ltb zero amount = false) ->
  exists n,
    add_custom_amount tcl py_float today win =
      Ok {| window_app := window_app win;
            custom_entry := custom_entry win;
            notices := n :: notices win |} /\
    (n = NotANumber <-> py_float (custom_entry win) = None).
Proof.
  intros [Hnone|(amount & Hsome & Hpos)]; unfold add_custom_amount.
  - rewrite Hnone. exists NotANumber. split; [reflexivity|]. tauto.
  - rewrite Hsome, Hpos. exists NotPositive. split; [reflexivity|].
    split; intros H; discriminate H.
Qed.

(** X11.  Whatever text is in the entry, [add_custom_amount] keeps the
    intake, in memory and in the file, non-negative. *)
Theorem add_custom_amount_nonneg today win win' :
  intake_nonneg tcl (window_app win) ->
  add_custom_amount tcl py_float today win = Ok win' ->
  intake_nonneg tcl (window_app win').
Proof.
  intros Hinv Hadd. unfold add_custom_amount in Hadd.
  destruct (py_float (custom_entry win)) as [amount|];
    [|injection Hadd as <-; exact Hinv].
  destruct (ltb zero amount) eqn:Hpos; [|injection Hadd as <-; exact Hinv].
  destruct (add_water tcl today amount (window_app win)) as [app1|err] eqn:Hwater;
    [|discriminate Hadd].
  cbn [bind] in Hadd. injection Hadd as <-. simpl.
  exact (add_water_nonneg tcl today amount (window_app win) app1 Hinv Hpos Hwater).
Qed.

(** X12.  Once the goal is met a valid amount is dropped without a word:
    the entry goes back to "Enter ml" as after an accepted amount, but the
    intake, the file and the widgets stay as they are and no box opens. *)
Theorem add_custom_amount_at_goal today win x amount :
  get tcl (window_app win) = Ok x ->
  geb x goal = true ->
  py_float (custom_entry win) = Some amount ->
  ltb zero amount = true ->
  add_custom_amount tcl py_float today win =
    Ok {| window_app := window_app win;
          custom_entry := "Enter ml";
          notices := notices win |}.
Proof.
  intros Hget Hgoal Hsome Hpos. unfold add_custom_amount.
  rewrite Hsome, Hpos.
  rewrite (add_water_at_goal tcl today amount (window_app win) x Hget Hgoal).
  reflexivity.
Qed.

End Buttons.

(** * Start-up, restarts and the entry field on concrete states *)

(** A file that holds the empty list. *)
Lemma load_data_not_an_object_witness :
  let app := startup (Json (PyList [])) in
  data_file app = Json (PyList []) /\
  (forall d : gmap string pyval, PyList [] <> PyDict d) /\
  load_data numbers_only "2024-06-01" app = Raise AttributeError /\
  init numbers_only "2024-06-01" (Json (PyList [])) = Raise AttributeError.
Proof.
  intros app.
  assert (Hdata : forall d : gmap string pyval, PyList [] <> PyDict d)
    by (intros d H; discriminate H).
  split; [reflexivity|]. split; [exact Hdata|].
  exact (load_data_not_an_object numbers_only "2024-06-01" app (PyList [])
           eq_refl Hdata).
Defined.

(** A first run creates no file. *)
Lemma load_data_writes_on_rollover_only_witness :
  let app := startup NoFile in
  let app1 := set_intake (PyNum zero) app in
  load_data numbers_only "2024-06-01" app = Ok app1 /\
  widgets app1 = widgets app /\
  dialogs app1 = dialogs app /\
  ((exists d : gmap string pyval,
      data_file app = Json (PyDict d) /\
      d !! "date" <> Some (PyStr "2024-06-01")) \/
   (data_file app1 = data_file app /\ dumped app1 = dumped app)).
Proof.
  intros app app1. split; [reflexivity|].
  exact (load_data_writes_on_rollover_only numbers_only "2024-06-01" app app1 eq_refl).
Defined.

(** Loading the record of the day before, twice. *)
Lemma load_data_idempotent_witness :
  let app := startup (Json (PyDict (record "2024-05-31" (of_int 750)))) in
  let app1 := write_file (record "2024-06-01" zero) (set_intake (PyNum zero) app) in
  load_data numbers_only "2024-06-01" app = Ok app1 /\
  load_data numbers_only "2024-06-01" app1 = Ok app1.
Proof.
  intros app app1.
  assert (Hload : load_data numbers_only "2024-06-01" app = Ok app1)
    by (vm_compute; reflexivity).
  split; [exact Hload|].
  exact (load_data_idempotent numbers_only "2024-06-01" app app1 Hload).
Defined.

(** A glass and a bottle on a first day, then a restart. *)
Lemma restart_restores_intake_witness :
  let evs := [("2024-06-01", AddWater (of_int 250));
              ("2024-06-01", AddWater (of_int 500))] in
  all_on "2024-06-01" evs = true /\
  exists app,
    run numbers_only (("2024-06-01", Load) :: evs) (startup NoFile) = Ok app /\
    current_intake app = PyNum (of_int 750) /\
    exists app2,
      load_data numbers_only "2024-06-01" (startup (data_file app)) = Ok app2 /\
      current_intake app2 = current_intake app /\
      data_file app2 = data_file app /\
      dumped app2 = [].
Proof.
  intros evs. split; [reflexivity|].
  eexists. split; [vm_compute; reflexivity|]. split; [reflexivity|].
  apply (restart_restores_intake numbers_only "2024-06-01" NoFile evs);
    [reflexivity|vm_compute; reflexivity].
Defined.

(** A stale record, a glass the next day. *)
Lemma file_mirrors_memory_witness :
  let file := Json (PyDict (record "2024-05-31" (of_int 750))) in
  let evs := [("2024-06-01", Load); ("2024-06-02", AddWater (of_int 250))] in
  exists app,
    run numbers_only evs (startup file) = Ok app /\
    ((dumped app = [] /\ data_file app = file) \/
     (exists day x rest,
        dumped app = record day x :: rest /\
        data_file app = Json (PyDict (record day x)) /\
        current_intake app = PyNum x)).
Proof.
  intros file evs.
  eexists. split; [vm_compute; reflexivity|].
  apply (file_mirrors_memory numbers_only file evs).
  vm_compute; reflexivity.
Defined.

(** A record of today whose intake is null. *)
Lemma init_unreadable_intake_witness :
  let d : gmap string pyval :=
    {[ "date" := PyStr "2024-06-01"; "intake" := PyNone ]} in
  d !! "date" = Some (PyStr "2024-06-01") /\
  d !! "intake" = Some PyNone /\
  getdouble numbers_only PyNone = Raise TclError /\
  load_data numbers_only "2024-06-01" (startup (Json (PyDict d))) =
    Ok (set_intake PyNone (startup (Json (PyDict d)))) /\
  init numbers_only "2024-06-01" (Json (PyDict d)) = Raise TclError.
Proof.
  intros d. split; [reflexivity|]. split; [reflexivity|]. split; [reflexivity|].
  apply (init_unreadable_intake numbers_only "2024-06-01" d PyNone); reflexivity.
Defined.

(** A first run, a glass, a reset and a bottle. *)
Lemma display_follows_intake_witness :
  let evs := [("2024-06-01", AddWater (of_int 250));
              ("2024-06-01", ResetDay true);
              ("2024-06-01", AddWater (of_int 500))] in
  no_load evs = true /\
  exists app0 app,
    init numbers_only "2024-06-01" NoFile = Ok app0 /\
    run numbers_only evs app0 = Ok app /\
    update_display numbers_only app = Ok app.
Proof.
  intros evs. split; [reflexivity|].
  do 2 eexists. split; [vm_compute; reflexivity|].
  split; [vm_compute; reflexivity|].
  eapply (display_follows_intake numbers_only "2024-06-01" NoFile evs);
    [vm_compute; reflexivity|reflexivity|vm_compute; reflexivity].
Defined.

(** 1750.0, then a bottle that crosses the goal, then more. *)
Lemma goal_reached_at_most_once_witness :
  let evs := [("2024-06-01", AddWater (of_int 1750));
              ("2024-06-01", AddWater (of_int 500));
              ("2024-06-01", AddWater (of_int 100))] in
  adds_only evs = true /\
  exists app,
    run numbers_only evs (startup NoFile) = Ok app /\
    dialogs app = [GoalReached] /\
    (dialogs app = dialogs (startup NoFile) \/
     (dialogs app = GoalReached :: dialogs (startup NoFile) /\
      exists x, get numbers_only app = Ok x /\ geb x goal = true)).
Proof.
  intros evs. split; [reflexivity|].
  eexists. split; [vm_compute; reflexivity|]. split; [reflexivity|].
  apply (goal_reached_at_most_once numbers_only evs (startup NoFile));
    [reflexivity|vm_compute; reflexivity].
Defined.

(** Three bottles and three glasses on a first day. *)
Lemma buttons_report_goal_witness :
  let l := [("2024-06-01", Bottle); ("2024-06-01", Bottle); ("2024-06-01", Bottle);
            ("2024-06-01", Glass); ("2024-06-01", Glass); ("2024-06-01", Glass)] in
  get numbers_only (startup NoFile) = Ok zero /\
  exists app k,
    run numbers_only (presses l) (startup NoFile) = Ok app /\
    0 <= k <= 9 /\
    get numbers_only app = Ok (of_int (250 * k)) /\
    dialogs app =
      (if k <? 8 then dialogs (startup NoFile)
       else GoalReached :: dialogs (startup NoFile)).
Proof.
  intros l. split; [reflexivity|].
  exact (buttons_report_goal numbers_only l (startup NoFile) eq_refl).
Defined.

(** The text "-5" in the entry. *)
Lemma add_custom_amount_rejects_witness :
  let win := {| window_app := startup NoFile;
                custom_entry := "-5";
                notices := [] |} in
  (float_of_sample (custom_entry win) = None \/
   exists amount,
     float_of_sample (custom_entry win) = Some amount /\ ltb zero amount = false) /\
  exists n,
    add_custom_amount numbers_only float_of_sample "2024-06-01" win =
      Ok {| window_app := window_app win;
            custom_entry := custom_entry win;
            notices := n :: notices win |} /\
    (n = NotANumber <-> float_of_sample (custom_entry win) = None).
Proof.
  intros win.
  assert (Hbad : float_of_sample (custom_entry win) = None \/
                 exists amount,
                   float_of_sample (custom_entry win) = Some amount /\
                   ltb zero amount = false)
    by (right; exists (of_int (-5)); split; reflexivity).
  split; [exact Hbad|].
  exact (add_custom_amount_rejects numbers_only float_of_sample "2024-06-01" win Hbad).
Defined.

(** The text "300" in the entry on a first day. *)
Lemma add_custom_amount_nonneg_witness :
  let win := {| window_app := startup NoFile;
                custom_entry := "300";
                notices := [] |} in
  intake_nonneg numbers_only (window_app win) /\
  exists win',
    add_custom_amount numbers_only float_of_sample "2024-06-01" win = Ok win' /\
    custom_entry win' = "Enter ml" /\
    intake_nonneg numbers_only (window_app win').
Proof.
  intros win.
  assert (Hinv : intake_nonneg numbers_only (window_app win)).
  { split; [exists zero; split; reflexivity|].
    intros d s Hfile. discriminate Hfile. }
  split; [exact Hinv|].
  eexists. split; [vm_compute; reflexivity|]. split; [reflexivity|].
  apply (add_custom_amount_nonneg numbers_only float_of_sample "2024-06-01" win);
    [exact Hinv|vm_compute; reflexivity].
Defined.

(** The text "300" in the entry at intake 2250.0. *)
Lemma add_custom_amount_at_goal_witness :
  let win := {| window_app := set_intake (PyNum (of_int 2250)) (startup NoFile);
                custom_entry := "300";
                notices := [] |} in
  get numbers_only (window_app win) = Ok (of_int 2250) /\
  geb (of_int 2250) goal = true /\
  float_of_sample (custom_entry win) = Some (of_int 300) /\
  ltb zero (of_int 300) = true /\
  add_custom_amount numbers_only float_of_sample "2024-06-01" win =
    Ok {| window_app := window_app win;
          custom_entry := "Enter ml";
          notices := notices win |}.
Proof.
  intros win. repeat (split; [reflexivity|]).
  apply (add_custom_amount_at_goal numbers_only float_of_sample "2024-06-01" win
           (of_int 2250) (of_int 300)); reflexivity.
Defined.
